(** * extract.py: page-by-page text extraction from a PDF

    A shallow embedding of [examples/agents/skills/pdf-processing/scripts/extract.py]
    and the verification of its behaviour.

    The script is a thin driver around three collaborators: the [pdfplumber]
    library (opening a document, listing its pages, extracting the text of a
    page), the operating system (creating and writing the output file) and
    the interpreter's standard streams.  The collaborators are described by
    an environment record [Env]; everything the script itself does (the
    loop, the formatting, the joining, the branching on the output path, the
    exception handler, the argument handling) is embedded as it is written.

    Python values are modelled as follows:
    - [str] is a sequence of Unicode code points ([list N]); encoded text is
      [list byte], and the [utf-8] codec is written out;
    - a call that may raise is a computation in the monad [M], which threads
      the observable [World] (standard streams, files, document handles) and
      propagates a raised exception together with the world reached so far;
    - [with] and [try]/[except Exception] are combinators of that monad.

    What the environment is taken to do:
    - a collaborator that fails raises an instance of [Exception] (the class
      the handler of [extract_text] names);
    - writing to standard error succeeds, and so does closing the document
      and the output file (a failed flush is a failed write);
    - the answers of the environment do not depend on what the script has
      written so far. *)

From Stdlib Require Import String Ascii NArith ZArith List Sorted Lia Decimal DecimalNat.
From Stdlib.Strings Require Import Byte.
From stdpp Require Import base option list gmap.

Local Open Scope N_scope.

(** ** Python strings *)

(** A Python [str]: a sequence of code points. *)
Abbreviation str := (list N).

(** String literals of the source are ASCII; [lit] reads one. *)
Definition lit (s : string) : str :=
  map N_of_ascii (list_ascii_of_string s).
Arguments lit s%_string.

(** The line feed [\n]. *)
Definition LF : N := 10.

(** [sep.join(l)]. *)
Fixpoint join {A : Type} (sep : list A) (l : list (list A)) : list A :=
  match l with
  | [] => []
  | [x] => x
  | x :: rest => x ++ sep ++ join sep rest
  end.

(** [str(i)] for a non-negative [int]: its decimal digits. *)
Fixpoint str_of_uint (d : Decimal.uint) : str :=
  match d with
  | Nil => []
  | D0 d' => 48 :: str_of_uint d'
  | D1 d' => 49 :: str_of_uint d'
  | D2 d' => 50 :: str_of_uint d'
  | D3 d' => 51 :: str_of_uint d'
  | D4 d' => 52 :: str_of_uint d'
  | D5 d' => 53 :: str_of_uint d'
  | D6 d' => 54 :: str_of_uint d'
  | D7 d' => 55 :: str_of_uint d'
  | D8 d' => 56 :: str_of_uint d'
  | D9 d' => 57 :: str_of_uint d'
  end.

Definition str_of_nat (n : nat) : str := str_of_uint (Nat.to_uint n).

(** Truthiness of an optional string, as tested by [if text:] and by
    [if output_path:]: [None] and the empty string are false. *)
Definition truthy (o : option str) : bool :=
  match o with
  | Some (_ :: _) => true
  | _ => false
  end.

(** The string held by a variable that passed the truthiness test (and
    nothing for [None], which the script never formats). *)
Definition get_str (o : option str) : str :=
  match o with
  | Some s => s
  | None => []
  end.

(** The lines of a text, split at line feeds; a final line feed ends the
    last line and does not open a new one (Python's [splitlines] for [\n]). *)
Fixpoint lines_from (cur : str) (s : str) : list str :=
  match s with
  | [] => match cur with [] => [] | _ => [cur] end
  | c :: s' =>
      if c =? LF then cur :: lines_from [] s'
      else lines_from (cur ++ [c]) s'
  end.

Definition lines (s : str) : list str := lines_from [] s.

(** ** UTF-8, the codec named by [encoding='utf-8'] *)

(** The bit layout of the encoding is written with division and
    remainder: [c / 64] drops six bits, [c mod 64] keeps them. *)

Definition is_surrogate (c : N) : bool := (0xD800 <=? c) && (c <=? 0xDFFF).

(** The bytes of one code point; [None] is the codec's refusal
    ([UnicodeEncodeError]: surrogates not allowed). *)
Definition utf8_encode_cp (c : N) : option (list byte) :=
  if c <? 0x80 then
    mapM Byte.of_N [c]
  else if c <? 0x800 then
    mapM Byte.of_N [0xC0 + c / 64; 0x80 + c mod 64]
  else if c <? 0x10000 then
    if is_surrogate c then None
    else mapM Byte.of_N [0xE0 + c / 4096; 0x80 + (c / 64) mod 64; 0x80 + c mod 64]
  else if c <? 0x110000 then
    mapM Byte.of_N [0xF0 + c / 262144; 0x80 + (c / 4096) mod 64;
                    0x80 + (c / 64) mod 64; 0x80 + c mod 64]
  else None.

Fixpoint utf8_encode (s : str) : option (list byte) :=
  match s with
  | [] => Some []
  | c :: s' =>
      match utf8_encode_cp c, utf8_encode s' with
      | Some b, Some bs => Some (b ++ bs)
      | _, _ => None
      end
  end.

(** The payload of a continuation byte [10xxxxxx]. *)
Definition continuation (b : byte) : option N :=
  let n := Byte.to_N b in
  if (0x80 <=? n) && (n <? 0xC0) then Some (n - 0x80) else None.

(** A decoded value is a code point unless a shorter form exists for it
    (it is below [least]), it is a surrogate, or it lies beyond U+10FFFF. *)
Definition scalar (least c : N) : option N :=
  if (c <? least) || is_surrogate c || (0x110000 <=? c) then None else Some c.

(** Strict decoding, the inverse the encoding is measured against. *)
Fixpoint utf8_decode (bs : list byte) : option str :=
  match bs with
  | [] => Some []
  | b0 :: r0 =>
      let n0 := Byte.to_N b0 in
      if n0 <? 0x80 then
        cons n0 <$> utf8_decode r0
      else if n0 <? 0xC0 then None
      else if n0 <? 0xE0 then
        match r0 with
        | b1 :: r1 =>
            match continuation b1 with
            | Some n1 =>
                match scalar 0x80 ((n0 - 0xC0) * 64 + n1) with
                | Some c => cons c <$> utf8_decode r1
                | None => None
                end
            | None => None
            end
        | _ => None
        end
      else if n0 <? 0xF0 then
        match r0 with
        | b1 :: b2 :: r2 =>
            match continuation b1, continuation b2 with
            | Some n1, Some n2 =>
                match scalar 0x800 ((n0 - 0xE0) * 4096 + n1 * 64 + n2) with
                | Some c => cons c <$> utf8_decode r2
                | None => None
                end
            | _, _ => None
            end
        | _ => None
        end
      else if n0 <? 0xF8 then
        match r0 with
        | b1 :: b2 :: b3 :: r3 =>
            match continuation b1, continuation b2, continuation b3 with
            | Some n1, Some n2, Some n3 =>
                match scalar 0x10000
                        ((n0 - 0xF0) * 262144 + n1 * 4096 + n2 * 64 + n3) with
                | Some c => cons c <$> utf8_decode r3
                | None => None
                end
            | _, _, _ => None
            end
        | _ => None
        end
      else None
  end.

(** ** Exceptions and the observable world *)

(** An instance of Python's [Exception]; [exc_message e] is [str(e)]. *)
Record Exception := mkException { exc_message : str }.

(** What a [raise] can carry through the script: an [Exception], or the
    [SystemExit] of [sys.exit], which [except Exception] does not catch. *)
Inductive Raised :=
  | Exc (e : Exception)
  | SystemExit (code : Z).

(** The result of a call into a collaborator. *)
Inductive Try (A : Type) :=
  | Ok (a : A)
  | Raises (e : Exception).
Arguments Ok {A} a.
Arguments Raises {A} e.

(** A document handle handed out by [pdfplumber.open]. *)
Record Handle := mkHandle { handle_path : str; handle_open : bool }.

Definition released (h : Handle) : Handle :=
  {| handle_path := handle_path h; handle_open := false |}.

Record World := mkWorld {
  sys_stdout : str;                        (* text written to sys.stdout *)
  sys_stderr : str;                        (* text written to sys.stderr *)
  files : gmap (list N) (list byte);       (* content of the files written, by path *)
  pdf_calls : list str;                    (* every path passed to pdfplumber.open *)
  handles : list Handle                    (* every document handle acquired *)
}.

Definition with_stdout (f : str -> str) (w : World) : World :=
  mkWorld (f (sys_stdout w)) (sys_stderr w) (files w) (pdf_calls w) (handles w).
Definition with_stderr (f : str -> str) (w : World) : World :=
  mkWorld (sys_stdout w) (f (sys_stderr w)) (files w) (pdf_calls w) (handles w).
Definition with_files
    (f : gmap (list N) (list byte) -> gmap (list N) (list byte)) (w : World) : World :=
  mkWorld (sys_stdout w) (sys_stderr w) (f (files w)) (pdf_calls w) (handles w).
Definition with_pdf_calls (f : list str -> list str) (w : World) : World :=
  mkWorld (sys_stdout w) (sys_stderr w) (files w) (f (pdf_calls w)) (handles w).
Definition with_handles (f : list Handle -> list Handle) (w : World) : World :=
  mkWorld (sys_stdout w) (sys_stderr w) (files w) (pdf_calls w) (f (handles w)).

(** ** The collaborators *)

(** A page of an opened document: what [page.extract_text()] does.  The
    library returns a string; [None] stands for an absent result. *)
Record Page := mkPage { page_extract_text : Try (option str) }.

(** An opened document: what reading the property [pdf.pages] does.  The
    property builds the page list once and then serves it again, so the
    list iterated and the list measured by [len(pdf.pages)] are the same. *)
Record Document := mkDocument { doc_pages : Try (list Page) }.

(** The environment of a run.  An I/O failure comes with what had reached
    the stream or the file before it. *)
Record Env := mkEnv {
  (* pdfplumber.open(path) *)
  pdfplumber_open : str -> Try Document;
  (* open(path, 'w', encoding='utf-8'): the error it raises, if any *)
  os_open_w : str -> option Exception;
  (* writing and flushing bytes to the file at a path *)
  os_write : str -> list byte -> option (Exception * list byte);
  (* writing text to sys.stdout *)
  os_stdout : str -> option (Exception * str);
  (* the UnicodeEncodeError the codec builds for a string it refuses *)
  UnicodeEncodeError : str -> Exception
}.

(** ** The monad of Python computations *)

Inductive Result (A : Type) :=
  | Return (a : A)
  | Raise (r : Raised).
Arguments Return {A} a.
Arguments Raise {A} r.

Definition M (A : Type) : Type := World -> Result A * World.

Definition ret {A} (a : A) : M A := fun w => (Return a, w).

Definition bind {A B} (m : M A) (k : A -> M B) : M B :=
  fun w =>
    match m w with
    | (Return a, w') => k a w'
    | (Raise r, w') => (Raise r, w')
    end.

Definition raise {A} (r : Raised) : M A := fun w => (Raise r, w).

(** The [x ← m; k] and [m ;; k] notations of stdpp read the sequencing. *)
#[global] Instance M_ret : MRet M := @ret.
#[global] Instance M_bind : MBind M := fun A B k m => bind m k.

(** A call into a collaborator: its value, or its exception raised. *)
Definition call {A} (t : Try A) : M A :=
  match t with
  | Ok a => ret a
  | Raises e => raise (Exc e)
  end.

(** [with enter as r: body]: [exit] runs when the body returns and when it
    raises; the managers used here do not swallow the exception. *)
Definition with_ {R A} (enter : M R) (exit : R -> M unit) (body : R -> M A) : M A :=
  fun w =>
    match enter w with
    | (Raise r, w1) => (Raise r, w1)
    | (Return h, w1) =>
        let '(res, w2) := body h w1 in
        match exit h w2 with
        | (Return _, w3) => (res, w3)
        | (Raise r, w3) => (Raise r, w3)
        end
    end.

(** [try: body except Exception as e: handler]. *)
Definition try_except {A} (body : M A) (handler : Exception -> M A) : M A :=
  fun w =>
    match body w with
    | (Raise (Exc e), w') => handler e w'
    | other => other
    end.

(** [sys.exit(code)]. *)
Definition sys_exit {A} (code : Z) : M A := raise (SystemExit code).

(** [print(s, file=sys.stderr)]; the standard error stream is taken to be
    writable. *)
Definition print_stderr (s : str) : M unit :=
  fun w => (Return tt, with_stderr (fun err => err ++ s ++ [LF]) w).

(** ** The script *)

(** The module docstring, printed as the usage text. *)
Definition __doc__ : str :=
  [LF] ++ lit "Extract text from a PDF file." ++ [LF] ++
  [LF] ++ lit "Usage:" ++ [LF] ++
  lit "    extract.py <input_pdf> [output_txt]" ++ [LF].

(** [f"Processing page {i}/{T}..."] *)
Definition progress (i T : nat) : str :=
  lit "Processing page " ++ str_of_nat i ++ lit "/" ++ str_of_nat T ++ lit "...".

(** The page marker [--- Page {i} ---]. *)
Definition marker (i : nat) : str :=
  lit "--- Page " ++ str_of_nat i ++ lit " ---".

(** [f"--- Page {i} ---\n{text}\n"] *)
Definition block (i : nat) (text : str) : str :=
  marker i ++ [LF] ++ text ++ [LF].

Section Script.

Variable env : Env.

(** [pdfplumber.open(pdf_path)] entered by [with]: the call is recorded;
    when it succeeds a fresh handle, open, is added to the world. *)
Definition pdf_enter (pdf_path : str) : M (nat * Document) :=
  fun w =>
    let w1 := with_pdf_calls (fun c => c ++ [pdf_path]) w in
    match pdfplumber_open env pdf_path with
    | Raises e => (Raise (Exc e), w1)
    | Ok d =>
        (Return (length (handles w1), d),
         with_handles (fun hs => hs ++ [mkHandle pdf_path true]) w1)
    end.

(** Leaving the [with] block closes the document. *)
Definition pdf_exit (pdf : nat * Document) : M unit :=
  fun w => (Return tt, with_handles (alter released (fst pdf)) w).

(** [open(output_path, 'w', encoding='utf-8')]: creates the file or
    truncates it. *)
Definition open_w (path : str) : M str :=
  fun w =>
    match os_open_w env path with
    | Some e => (Raise (Exc e), w)
    | None => (Return path, with_files (insert path []) w)
    end.

(** [f.write(s)] on a file opened by [open_w], flushed by the time the
    [with] block is left. *)
Definition file_write (f : str) (s : str) : M unit :=
  fun w =>
    match utf8_encode s with
    | None => (Raise (Exc (UnicodeEncodeError env s)), w)
    | Some bs =>
        let old := default [] (files w !! f) in
        match os_write env f bs with
        | Some (e, written) =>
            (Raise (Exc e), with_files (insert f (old ++ written)) w)
        | None => (Return tt, with_files (insert f (old ++ bs)) w)
        end
    end.

Definition file_exit (f : str) : M unit := ret tt.

(** [print(s)]: the string and a line feed, to standard output. *)
Definition print (s : str) : M unit :=
  fun w =>
    match os_stdout env (s ++ [LF]) with
    | Some (e, written) =>
        (Raise (Exc e), with_stdout (fun out => out ++ written) w)
    | None => (Return tt, with_stdout (fun out => out ++ s ++ [LF]) w)
    end.

(** The loop [for i, page in enumerate(pdf.pages, 1)]: [pages] is the
    whole list (for [len(pdf.pages)]), [rest] what is left to visit, [i]
    the number of the next page; [text_content] is the list appended to. *)
Fixpoint for_pages (pages : list Page) (i : nat) (rest : list Page)
    (text_content : list str) : M (list str) :=
  match rest with
  | [] => ret text_content
  | page :: rest' =>
      print_stderr (progress i (length pages)) ;;
      text ← call (page_extract_text page);
      if truthy text then
        for_pages pages (S i) rest' (text_content ++ [block i (get_str text)])
      else
        for_pages pages (S i) rest' text_content
  end.

(** The statement [with pdfplumber.open(pdf_path) as pdf: ...], which
    leaves the list [text_content] filled. *)
Definition read_pages (pdf_path : str) (text_content : list str) : M (list str) :=
  with_ (pdf_enter pdf_path) pdf_exit (fun pdf =>
    pages ← call (doc_pages (snd pdf));
    for_pages pages 1 pages text_content).

(** [result = '\n'.join(text_content)] *)
Definition result (text_content : list str) : str := join [LF] text_content.

(** The statements after the [with] block: the result goes to the file
    at [output_path] or to standard output. *)
Definition deliver (output_path : option str) (text_content : list str) : M unit :=
  let result := result text_content in
  if truthy output_path then
    with_ (open_w (get_str output_path)) file_exit (fun f =>
      file_write f result) ;;
    print_stderr (lit "Text extracted to " ++ get_str output_path)
  else
    print result.

(** The body of the [try] statement of [extract_text]. *)
Definition extract_body (pdf_path : str) (output_path : option str)
    (text_content : list str) : M unit :=
  text_content ← read_pages pdf_path text_content;
  deliver output_path text_content.

(** [def extract_text(pdf_path, output_path=None)] *)
Definition extract_text (pdf_path : str) (output_path : option str) : M unit :=
  let text_content := [] in
  try_except
    (extract_body pdf_path output_path text_content)
    (fun e =>
       print_stderr (lit "Error: " ++ exc_message e) ;;
       sys_exit 1).

(** The [if __name__ == '__main__':] block, on [sys.argv]. *)
Definition main (argv : list str) : M unit :=
  if (length argv <? 2)%nat then
    print_stderr __doc__ ;;
    sys_exit 1
  else
    match argv !! 1%nat with
    | None => raise (Exc (mkException (lit "list index out of range")))
    | Some input_pdf =>
        let output_txt := if (2 <? length argv)%nat then argv !! 2%nat else None in
        extract_text input_pdf output_txt
    end.

(** The exit status of the interpreter: 0 when the script runs to its
    end, the code of a [SystemExit], 1 for an exception nobody caught. *)
Definition exit_status {A} (r : Result A) : Z :=
  match r with
  | Return _ => 0
  | Raise (SystemExit code) => code
  | Raise (Exc _) => 1
  end.

End Script.

Arguments exit_status {A} r.

(** ** What a successful pass leaves behind *)

(** The blocks appended for the pages numbered from [i] whose extraction
    returned [texts]. *)
Fixpoint page_blocks (i : nat) (texts : list (option str)) : list str :=
  match texts with
  | [] => []
  | t :: texts' =>
      (if truthy t then [block i (get_str t)] else []) ++ page_blocks (S i) texts'
  end.

(** The progress notices of [n] pages numbered from [i], out of [T]. *)
Fixpoint progress_log (T i n : nat) : str :=
  match n with
  | O => []
  | S n' => progress i T ++ [LF] ++ progress_log T (S i) n'
  end.

(** ** Failures of a run *)

(** The handle a run acquires, as the run leaves it: none when the
    document cannot be opened, and a released one otherwise. *)
Definition acquired (env : Env) (pdf_path : str) : list Handle :=
  match pdfplumber_open env pdf_path with
  | Ok _ => [mkHandle pdf_path false]
  | Raises _ => []
  end.

(** The world after the [with] block has been left, [log] being what the
    loop printed. *)
Definition after_pass (env : Env) (pdf_path : str) (log : str) (w : World) : World :=
  mkWorld (sys_stdout w) (sys_stderr w ++ log) (files w)
          (pdf_calls w ++ [pdf_path]) (handles w ++ acquired env pdf_path).

(** A failure of the extraction pass: opening the document raises, listing
    its pages raises, or some page raises after the pages before it
    extracted. *)
Inductive PassFailure (env : Env) (pdf_path : str) : Exception -> Prop :=
  | open_raises e :
      pdfplumber_open env pdf_path = Raises e ->
      PassFailure env pdf_path e
  | pages_raises doc e :
      pdfplumber_open env pdf_path = Ok doc ->
      doc_pages doc = Raises e ->
      PassFailure env pdf_path e
  | page_raises doc pre bad post texts e :
      pdfplumber_open env pdf_path = Ok doc ->
      doc_pages doc = Ok (pre ++ bad :: post) ->
      page_extract_text <$> pre = Ok <$> texts ->
      page_extract_text bad = Raises e ->
      PassFailure env pdf_path e.



(** ** Sample documents *)

Definition initial_world : World := mkWorld [] [] ∅ [] [].

(** An operating system on which nothing fails. *)
Definition env_of (doc : Try Document) : Env :=
  mkEnv (fun _ => doc) (fun _ => None) (fun _ _ => None) (fun _ => None)
        (fun _ => mkException (lit "surrogates not allowed")).

(** Three pages, the second without text. *)
Definition demo_texts : list (option str) :=
  [Some (lit "Hello"); None; Some (lit "Bye")].
Definition demo_pages : list Page := (fun t => mkPage (Ok t)) <$> demo_texts.
Definition demo_doc : Document := mkDocument (Ok demo_pages).
Definition demo_env : Env := env_of (Ok demo_doc).
Definition demo_bytes : list byte :=
  Eval cbv in from_option id [] (utf8_encode (result (page_blocks 1 demo_texts))).

(** Two pages without text. *)
Definition blank_texts : list (option str) := [None; Some []].
Definition blank_pages : list Page := (fun t => mkPage (Ok t)) <$> blank_texts.
Definition blank_doc : Document := mkDocument (Ok blank_pages).
Definition blank_env : Env := env_of (Ok blank_doc).

(** Two pages, the second of which cannot be read. *)
Definition bad_page : Exception := mkException (lit "bad page").
Definition broken_pages : list Page :=
  [mkPage (Ok (Some (lit "Hello"))); mkPage (Raises bad_page)].
Definition broken_doc : Document := mkDocument (Ok broken_pages).
Definition broken_env : Env := env_of (Ok broken_doc).

Definition in_pdf : str := lit "in.pdf".
Definition out_txt : str := lit "out.txt".

(** The demo document on a system where the output file cannot be created. *)
Definition permission_denied : Exception :=
  mkException (lit "[Errno 13] Permission denied: 'out.txt'").
Definition readonly_env : Env :=
  mkEnv (fun _ => Ok demo_doc) (fun _ => Some permission_denied)
        (fun _ _ => None) (fun _ => None)
        (fun _ => mkException (lit "surrogates not allowed")).

(** A page whose text holds a lone surrogate, which the codec refuses. *)
Definition surrogate_doc : Document :=
  mkDocument (Ok [mkPage (Ok (Some [0xDC80]))]).
Definition surrogate_env : Env := env_of (Ok surrogate_doc).

(** Two pages, both with text. *)
Definition full_texts : list (option str) := [Some (lit "One"); Some (lit "Two")].
Definition full_pages : list Page := (fun t => mkPage (Ok t)) <$> full_texts.

(** * Verification *)

Arguments lit : simpl never.
Arguments progress : simpl never.
Arguments marker : simpl never.
Arguments block : simpl never.
Arguments str_of_nat : simpl never.

(** Projections of updated worlds. *)
Ltac simpl_world :=
  unfold with_stdout, with_stderr, with_files, with_pdf_calls, with_handles in *;
  cbn [sys_stdout sys_stderr files pdf_calls handles fst snd] in *.

(** ** UTF-8 *)

(** Linear arithmetic with division and remainder by constants. *)
Ltac div_lia := zify; Z.to_euclidean_division_equations; lia.

(** A value below 256 is a byte. *)
Lemma of_N_Some (n : N) : n < 256 -> exists b, Byte.of_N n = Some b /\ Byte.to_N b = n.
Proof.
  intros H. destruct (Byte.of_N n) as [b|] eqn:E.
  - exists b. split; [reflexivity|]. apply Byte.to_of_N, E.
  - apply Byte.of_N_None_iff in E. lia.
Qed.

Lemma continuation_payload (b : byte) (x : N) :
  x < 64 -> Byte.to_N b = 0x80 + x -> continuation b = Some x.
Proof.
  intros Hx Hb. unfold continuation. rewrite Hb.
  replace ((0x80 <=? 0x80 + x) && (0x80 + x <? 0xC0)) with true.
  - f_equal. lia.
  - symmetry. apply andb_true_iff. split; [apply N.leb_le|apply N.ltb_lt]; lia.
Qed.

Lemma scalar_Some (least c : N) :
  least <= c -> is_surrogate c = false -> c < 0x110000 -> scalar least c = Some c.
Proof.
  intros H1 H2 H3. unfold scalar. rewrite H2.
  replace (c <? least) with false by (symmetry; apply N.ltb_ge; lia).
  replace (0x110000 <=? c) with false by (symmetry; apply N.leb_gt; lia).
  reflexivity.
Qed.

Lemma is_surrogate_low (c : N) : c < 0xD800 -> is_surrogate c = false.
Proof. intros H. unfold is_surrogate. replace (0xD800 <=? c) with false; [reflexivity|]. symmetry. apply N.leb_gt. lia. Qed.
Lemma is_surrogate_high (c : N) : 0xDFFF < c -> is_surrogate c = false.
Proof. intros H. unfold is_surrogate. replace (c <=? 0xDFFF) with false; [apply andb_false_r|]. symmetry. apply N.leb_gt. lia. Qed.

(** The bytes of a code point decode to it. *)
Lemma utf8_decode_encode_cp (c : N) (b : list byte) :
  utf8_encode_cp c = Some b ->
  forall rest, utf8_decode (b ++ rest) = cons c <$> utf8_decode rest.
Proof.
  unfold utf8_encode_cp.
  destruct (N.ltb_spec c 0x80) as [H1|H1].
  { intros E rest.
    destruct (of_N_Some c) as (b0 & E0 & T0); [lia|].
    cbn in E. rewrite E0 in E. cbn in E. injection E as <-.
    cbn [app utf8_decode]. rewrite T0.
    replace (c <? 0x80) with true by (symmetry; apply N.ltb_lt; lia). reflexivity. }
  destruct (N.ltb_spec c 0x800) as [H2|H2].
  { intros E rest.
    destruct (of_N_Some (0xC0 + c / 64)) as (b0 & E0 & T0); [div_lia|].
    destruct (of_N_Some (0x80 + c mod 64)) as (b1 & E1 & T1); [div_lia|].
    cbn in E. rewrite E0, E1 in E. cbn in E. injection E as <-.
    cbn [app utf8_decode]. rewrite T0.
    replace (0xC0 + c / 64 <? 0x80) with false by (symmetry; apply N.ltb_ge; div_lia).
    replace (0xC0 + c / 64 <? 0xC0) with false by (symmetry; apply N.ltb_ge; div_lia).
    replace (0xC0 + c / 64 <? 0xE0) with true by (symmetry; apply N.ltb_lt; div_lia).
    rewrite (continuation_payload b1 (c mod 64)) by (try assumption; div_lia).
    replace ((0xC0 + c / 64 - 0xC0) * 64 + c mod 64) with c by div_lia.
    rewrite scalar_Some; [reflexivity|lia|apply is_surrogate_low; lia|lia]. }
  destruct (N.ltb_spec c 0x10000) as [H3|H3].
  { destruct (is_surrogate c) eqn:Hs; [discriminate|].
    intros E rest.
    destruct (of_N_Some (0xE0 + c / 4096)) as (b0 & E0 & T0); [div_lia|].
    destruct (of_N_Some (0x80 + (c / 64) mod 64)) as (b1 & E1 & T1); [div_lia|].
    destruct (of_N_Some (0x80 + c mod 64)) as (b2 & E2 & T2); [div_lia|].
    cbn in E. rewrite E0, E1, E2 in E. cbn in E. injection E as <-.
    cbn [app utf8_decode]. rewrite T0.
    replace (0xE0 + c / 4096 <? 0x80) with false by (symmetry; apply N.ltb_ge; div_lia).
    replace (0xE0 + c / 4096 <? 0xC0) with false by (symmetry; apply N.ltb_ge; div_lia).
    replace (0xE0 + c / 4096 <? 0xE0) with false by (symmetry; apply N.ltb_ge; div_lia).
    replace (0xE0 + c / 4096 <? 0xF0) with true by (symmetry; apply N.ltb_lt; div_lia).
    rewrite (continuation_payload b1 ((c / 64) mod 64)) by (try assumption; div_lia).
    rewrite (continuation_payload b2 (c mod 64)) by (try assumption; div_lia).
    replace ((0xE0 + c / 4096 - 0xE0) * 4096 + (c / 64) mod 64 * 64 + c mod 64) with c by div_lia.
    rewrite scalar_Some; [reflexivity|lia|assumption|lia]. }
  destruct (N.ltb_spec c 0x110000) as [H4|H4]; [|discriminate].
  intros E rest.
  destruct (of_N_Some (0xF0 + c / 262144)) as (b0 & E0 & T0); [div_lia|].
  destruct (of_N_Some (0x80 + (c / 4096) mod 64)) as (b1 & E1 & T1); [div_lia|].
  destruct (of_N_Some (0x80 + (c / 64) mod 64)) as (b2 & E2 & T2); [div_lia|].
  destruct (of_N_Some (0x80 + c mod 64)) as (b3 & E3 & T3); [div_lia|].
  cbn in E. rewrite E0, E1, E2, E3 in E. cbn in E. injection E as <-.
  cbn [app utf8_decode]. rewrite T0.
  replace (0xF0 + c / 262144 <? 0x80) with false by (symmetry; apply N.ltb_ge; div_lia).
  replace (0xF0 + c / 262144 <? 0xC0) with false by (symmetry; apply N.ltb_ge; div_lia).
  replace (0xF0 + c / 262144 <? 0xE0) with false by (symmetry; apply N.ltb_ge; div_lia).
  replace (0xF0 + c / 262144 <? 0xF0) with false by (symmetry; apply N.ltb_ge; div_lia).
  replace (0xF0 + c / 262144 <? 0xF8) with true by (symmetry; apply N.ltb_lt; div_lia).
  rewrite (continuation_payload b1 ((c / 4096) mod 64)) by (try assumption; div_lia).
  rewrite (continuation_payload b2 ((c / 64) mod 64)) by (try assumption; div_lia).
  rewrite (continuation_payload b3 (c mod 64)) by (try assumption; div_lia).
  replace ((0xF0 + c / 262144 - 0xF0) * 262144 + (c / 4096) mod 64 * 4096 +
           (c / 64) mod 64 * 64 + c mod 64) with c by div_lia.
  rewrite scalar_Some; [reflexivity|lia|apply is_surrogate_high; lia|lia].
Qed.

(** Decoding what the codec produced gives the string back. *)
Lemma utf8_decode_encode (s : str) (bs : list byte) :
  utf8_encode s = Some bs -> utf8_decode bs = Some s.
Proof.
  revert bs. induction s as [|c s IH]; intros bs E.
  - injection E as <-. reflexivity.
  - cbn [utf8_encode] in E.
    destruct (utf8_encode_cp c) as [b|] eqn:Ec; [|discriminate].
    destruct (utf8_encode s) as [bs'|]; [|discriminate].
    injection E as <-.
    rewrite (utf8_decode_encode_cp c b Ec), (IH bs' eq_refl). reflexivity.
Qed.

(** The codec refuses a code point exactly when it is a surrogate or lies
    beyond U+10FFFF. *)
Lemma utf8_encode_cp_None (c : N) :
  utf8_encode_cp c = None <-> is_surrogate c = true \/ 0x110000 <= c.
Proof.
  unfold utf8_encode_cp.
  destruct (N.ltb_spec c 0x80) as [H1|H1].
  { destruct (of_N_Some c) as (b0 & E0 & _); [lia|].
    cbn. rewrite E0. cbn. split; [discriminate|].
    intros [H|H]; [rewrite is_surrogate_low in H by lia; discriminate|lia]. }
  destruct (N.ltb_spec c 0x800) as [H2|H2].
  { destruct (of_N_Some (0xC0 + c / 64)) as (b0 & E0 & _); [div_lia|].
    destruct (of_N_Some (0x80 + c mod 64)) as (b1 & E1 & _); [div_lia|].
    cbn. rewrite E0, E1. cbn. split; [discriminate|].
    intros [H|H]; [rewrite is_surrogate_low in H by lia; discriminate|lia]. }
  destruct (N.ltb_spec c 0x10000) as [H3|H3].
  { destruct (is_surrogate c) eqn:Hs; [split; auto|].
    destruct (of_N_Some (0xE0 + c / 4096)) as (b0 & E0 & _); [div_lia|].
    destruct (of_N_Some (0x80 + (c / 64) mod 64)) as (b1 & E1 & _); [div_lia|].
    destruct (of_N_Some (0x80 + c mod 64)) as (b2 & E2 & _); [div_lia|].
    cbn. rewrite E0, E1, E2. cbn. split; [discriminate|].
    intros [H|H]; [discriminate|lia]. }
  destruct (N.ltb_spec c 0x110000) as [H4|H4]; [|split; auto].
  destruct (of_N_Some (0xF0 + c / 262144)) as (b0 & E0 & _); [div_lia|].
  destruct (of_N_Some (0x80 + (c / 4096) mod 64)) as (b1 & E1 & _); [div_lia|].
  destruct (of_N_Some (0x80 + (c / 64) mod 64)) as (b2 & E2 & _); [div_lia|].
  destruct (of_N_Some (0x80 + c mod 64)) as (b3 & E3 & _); [div_lia|].
  cbn. rewrite E0, E1, E2, E3. cbn. split; [discriminate|].
  intros [H|H]; [rewrite is_surrogate_high in H by lia; discriminate|lia].
Qed.

(** The codec refuses a string exactly when it holds a surrogate or a
    value beyond U+10FFFF. *)
Lemma utf8_encode_None (s : str) :
  utf8_encode s = None <->
  Exists (fun c => is_surrogate c = true \/ 0x110000 <= c) s.
Proof.
  induction s as [|c s IH].
  - split; [discriminate|]. intros H. inversion H.
  - cbn [utf8_encode]. rewrite Exists_cons, <- IH, <- utf8_encode_cp_None.
    destruct (utf8_encode_cp c), (utf8_encode s); split; intros H;
      try discriminate; try (destruct H; discriminate); auto.
Qed.

(** ** The string functions on samples *)

Example join_sample : join (lit "-") [lit "a"; lit "b"; lit "c"] = lit "a-b-c".
Proof. reflexivity. Qed.

Example join_single : join (lit "-") [lit "a"] = lit "a".
Proof. reflexivity. Qed.

Example str_of_nat_sample : str_of_nat 120 = lit "120".
Proof. reflexivity. Qed.

Example block_sample :
  block 12 (lit "Hi") = lit "--- Page 12 ---" ++ [LF] ++ lit "Hi" ++ [LF].
Proof. reflexivity. Qed.

Example lines_sample :
  lines (lit "a" ++ [LF; LF] ++ lit "b" ++ [LF]) = [lit "a"; []; lit "b"].
Proof. reflexivity. Qed.

Example utf8_two_bytes : utf8_encode [0xE9] = Some [xc3; xa9].
Proof. reflexivity. Qed.

Example utf8_three_bytes : utf8_encode [0x20AC] = Some [xe2; x82; xac].
Proof. reflexivity. Qed.

Example utf8_four_bytes : utf8_encode [0x1F600] = Some [xf0; x9f; x98; x80].
Proof. reflexivity. Qed.

Example utf8_surrogate_refused : utf8_encode (lit "a" ++ [0xDC80]) = None.
Proof. reflexivity. Qed.

Example utf8_overlong_rejected : utf8_decode [xc0; x80] = None.
Proof. reflexivity. Qed.

(** ** The loop *)

(** Every page extracts: the loop returns, having appended the blocks of
    the pages with text and printed one notice per page. *)
Lemma for_pages_ok pages texts :
  forall rest i text_content w,
    page_extract_text <$> rest = Ok <$> texts ->
    for_pages pages i rest text_content w =
      (Return (text_content ++ page_blocks i texts),
       with_stderr (fun err => err ++ progress_log (length pages) i (length rest)) w).
Proof.
  induction texts as [|t texts IH]; intros rest i tc w H.
  - destruct rest; [|discriminate]. cbn [for_pages page_blocks length progress_log].
    unfold ret, with_stderr. rewrite !app_nil_r. destruct w; reflexivity.
  - destruct rest as [|page rest]; [discriminate|].
    injection H as Hp Hrest.
    cbn [for_pages]. unfold mbind, M_bind, bind, print_stderr.
    rewrite Hp. cbn [call ret].
    destruct (truthy t) eqn:Ht.
    + rewrite (IH rest (S i) _ _ Hrest). cbn [page_blocks]. rewrite Ht.
      rewrite <- app_assoc. f_equal.
      simpl_world. cbn [length progress_log]. rewrite <- !app_assoc. reflexivity.
    + rewrite (IH rest (S i) _ _ Hrest). cbn [page_blocks]. rewrite Ht.
      f_equal.
      simpl_world. cbn [length progress_log]. rewrite <- !app_assoc. reflexivity.
Qed.

(** A page raises after [pre] extracted: the loop raises that exception,
    having printed the notices up to and including the failing page. *)
Lemma for_pages_raise pages texts :
  forall pre bad post e i text_content w,
    page_extract_text <$> pre = Ok <$> texts ->
    page_extract_text bad = Raises e ->
    for_pages pages i (pre ++ bad :: post) text_content w =
      (Raise (Exc e),
       with_stderr (fun err => err ++ progress_log (length pages) i (S (length pre))) w).
Proof.
  induction texts as [|t texts IH]; intros pre bad post e i tc w H Hbad.
  - destruct pre; [|discriminate]. cbn [app for_pages].
    unfold mbind, M_bind, bind, print_stderr. rewrite Hbad. cbn [call raise].
    simpl_world. cbn [length progress_log]. reflexivity.
  - destruct pre as [|page pre]; [discriminate|].
    injection H as Hp Hpre.
    cbn [app for_pages]. unfold mbind, M_bind, bind, print_stderr.
    rewrite Hp. cbn [call ret].
    destruct (truthy t);
      rewrite (IH pre bad post e (S i) _ _ Hpre Hbad);
      f_equal; simpl_world; cbn [length progress_log];
      rewrite <- !app_assoc; reflexivity.
Qed.

(** Every list of pages either extracts throughout or has a first page
    that raises. *)
Lemma pages_ok_or_raise (ps : list Page) :
  (exists texts, page_extract_text <$> ps = Ok <$> texts) \/
  (exists pre bad post texts e,
      ps = pre ++ bad :: post /\
      page_extract_text <$> pre = Ok <$> texts /\
      page_extract_text bad = Raises e).
Proof.
  induction ps as [|p ps IH].
  - left. exists []. reflexivity.
  - destruct (page_extract_text p) as [t|e] eqn:Hp.
    + destruct IH as [[texts H]|(pre & bad & post & texts & e & -> & H & Hbad)].
      * left. exists (t :: texts). cbn. rewrite Hp, H. reflexivity.
      * right. exists (p :: pre), bad, post, (t :: texts), e.
        split; [reflexivity|]. split; [|assumption].
        cbn. rewrite Hp, H. reflexivity.
    + right. exists [], p, ps, [], e. repeat split; assumption.
Qed.

(** ** The pass over the document *)

Section Pass.

Variable env : Env.

Lemma release_last (hs : list Handle) (pdf_path : str) :
  alter released (length hs) (hs ++ [mkHandle pdf_path true]) =
  hs ++ [mkHandle pdf_path false].
Proof.
  rewrite <- (Nat.add_0_r (length hs)). rewrite alter_app_r. reflexivity.
Qed.

Lemma read_pages_ok pdf_path doc pages texts text_content w :
  pdfplumber_open env pdf_path = Ok doc ->
  doc_pages doc = Ok pages ->
  page_extract_text <$> pages = Ok <$> texts ->
  read_pages env pdf_path text_content w =
    (Return (text_content ++ page_blocks 1 texts),
     after_pass env pdf_path (progress_log (length pages) 1 (length pages)) w).
Proof.
  intros Hopen Hpages Htexts.
  unfold read_pages, with_, pdf_enter, after_pass, acquired. rewrite Hopen.
  unfold mbind, M_bind, bind. cbn [snd]. rewrite Hpages. cbn [call ret].
  rewrite (for_pages_ok pages texts pages 1 _ _ Htexts).
  unfold pdf_exit. simpl_world. rewrite release_last. reflexivity.
Qed.

Lemma read_pages_raise pdf_path e text_content w :
  PassFailure env pdf_path e ->
  exists T n,
    read_pages env pdf_path text_content w =
      (Raise (Exc e), after_pass env pdf_path (progress_log T 1 n) w).
Proof.
  intros [e' Hopen | doc e' Hopen Hpages | doc pre bad post texts e' Hopen Hpages Hpre Hbad].
  - exists 0%nat, 0%nat.
    unfold read_pages, with_, pdf_enter, after_pass, acquired. rewrite Hopen.
    simpl_world. cbn [progress_log]. rewrite !app_nil_r. reflexivity.
  - exists 0%nat, 0%nat.
    unfold read_pages, with_, pdf_enter, after_pass, acquired. rewrite Hopen.
    unfold mbind, M_bind, bind. cbn [snd]. rewrite Hpages. cbn [call raise].
    unfold pdf_exit. simpl_world. rewrite release_last.
    cbn [progress_log]. rewrite !app_nil_r. reflexivity.
  - exists (length (pre ++ bad :: post)), (S (length pre)).
    unfold read_pages, with_, pdf_enter, after_pass, acquired. rewrite Hopen.
    unfold mbind, M_bind, bind. cbn [snd]. rewrite Hpages. cbn [call ret].
    rewrite (for_pages_raise _ texts pre bad post e' 1 _ _ Hpre Hbad).
    unfold pdf_exit. simpl_world. rewrite release_last. reflexivity.
Qed.

(** The pass either extracts every page or fails in one of the three ways. *)
Lemma pass_ok_or_failure pdf_path :
  (exists doc pages texts,
      pdfplumber_open env pdf_path = Ok doc /\
      doc_pages doc = Ok pages /\
      page_extract_text <$> pages = Ok <$> texts) \/
  (exists e, PassFailure env pdf_path e).
Proof.
  destruct (pdfplumber_open env pdf_path) as [doc|e] eqn:Hopen.
  - destruct (doc_pages doc) as [pages|e] eqn:Hpages.
    + destruct (pages_ok_or_raise pages)
        as [[texts H]|(pre & bad & post & texts & e & -> & H & Hbad)].
      * left. exists doc, pages, texts. auto.
      * right. exists e. eapply page_raises; eauto.
    + right. exists e. eapply pages_raises; eauto.
  - right. exists e. apply open_raises. assumption.
Qed.

End Pass.

(** ** Delivering the result *)

Section Deliver.

Variable env : Env.

(** The delivery, with the plumbing of [with] and of the sequencing
    carried out. *)
Lemma deliver_eq output_path text_content w :
  deliver env output_path text_content w =
    let res := result text_content in
    let path := get_str output_path in
    if truthy output_path then
      match os_open_w env path with
      | Some e => (Raise (Exc e), w)
      | None =>
          match utf8_encode res with
          | None =>
              (Raise (Exc (UnicodeEncodeError env res)),
               with_files (insert path []) w)
          | Some bs =>
              match os_write env path bs with
              | Some (e, written) =>
                  (Raise (Exc e), with_files (insert path written) w)
              | None =>
                  (Return tt,
                   with_stderr
                     (fun err => err ++ (lit "Text extracted to " ++ path) ++ [LF])
                     (with_files (insert path bs) w))
              end
          end
      end
    else
      match os_stdout env (res ++ [LF]) with
      | Some (e, written) =>
          (Raise (Exc e), with_stdout (fun out => out ++ written) w)
      | None => (Return tt, with_stdout (fun out => out ++ res ++ [LF]) w)
      end.
Proof.
  unfold deliver. cbv zeta.
  destruct (truthy output_path); [|reflexivity].
  unfold mbind, M_bind, bind, with_, open_w, file_write, file_exit, ret, print_stderr.
  destruct (os_open_w env (get_str output_path)) as [e|]; [reflexivity|].
  destruct (utf8_encode (result text_content)) as [bs|].
  - simpl_world. rewrite lookup_insert_eq. cbn [default app].
    destruct (os_write env (get_str output_path) bs) as [[e written]|];
      simpl_world; rewrite insert_insert_eq; reflexivity.
  - reflexivity.
Qed.



End Deliver.

(** ** Runs of [extract_text] *)

Section Runs.

Variable env : Env.

(** The handler of [extract_text], carried out. *)
Lemma extract_text_eq pdf_path output_path w :
  extract_text env pdf_path output_path w =
    match extract_body env pdf_path output_path [] w with
    | (Raise (Exc e), w') =>
        (Raise (SystemExit 1),
         with_stderr (fun err => err ++ (lit "Error: " ++ exc_message e) ++ [LF]) w')
    | other => other
    end.
Proof.
  unfold extract_text, try_except.
  destruct (extract_body env pdf_path output_path [] w) as [[a|[e|code]] w'];
    reflexivity.
Qed.

(** After a pass that extracted every page, the body is the delivery of
    the blocks, from the world the pass has left. *)
Lemma extract_body_ok pdf_path output_path doc pages texts w :
  pdfplumber_open env pdf_path = Ok doc ->
  doc_pages doc = Ok pages ->
  page_extract_text <$> pages = Ok <$> texts ->
  extract_body env pdf_path output_path [] w =
    deliver env output_path (page_blocks 1 texts)
      (after_pass env pdf_path (progress_log (length pages) 1 (length pages)) w).
Proof.
  intros Hopen Hpages Htexts. unfold extract_body, mbind, M_bind, bind.
  rewrite (read_pages_ok env pdf_path doc pages texts [] w Hopen Hpages Htexts).
  reflexivity.
Qed.

(** After a failed pass the body raises without delivering anything. *)
Lemma extract_body_pass_failure pdf_path output_path e w :
  PassFailure env pdf_path e ->
  exists T n,
    extract_body env pdf_path output_path [] w =
      (Raise (Exc e), after_pass env pdf_path (progress_log T 1 n) w).
Proof.
  intros H.
  destruct (read_pages_raise env pdf_path e [] w H) as (T & n & Hr).
  exists T, n. unfold extract_body, mbind, M_bind, bind. rewrite Hr. reflexivity.
Qed.



End Runs.

(** ** The blocks of a pass *)




(** ** The lines of the result *)

Lemma lines_from_line (s : str) :
  Forall (fun c => c <> LF) s ->
  forall cur rest,
    lines_from cur (s ++ LF :: rest) = (cur ++ s) :: lines_from [] rest.
Proof.
  induction 1 as [|c s Hc _ IH]; intros cur rest.
  - cbn [app lines_from]. rewrite N.eqb_refl, app_nil_r. reflexivity.
  - cbn [app lines_from]. apply N.eqb_neq in Hc. rewrite Hc, IH, <- app_assoc. reflexivity.
Qed.


Lemma str_of_uint_no_LF (d : Decimal.uint) : Forall (fun c => c <> LF) (str_of_uint d).
Proof. induction d; cbn [str_of_uint]; constructor; try assumption; discriminate. Qed.

Lemma marker_no_LF (i : nat) : Forall (fun c => c <> LF) (marker i).
Proof.
  unfold marker. rewrite !Forall_app. split; [|split].
  - vm_compute. repeat constructor; discriminate.
  - apply str_of_uint_no_LF.
  - vm_compute. repeat constructor; discriminate.
Qed.




(** ** Failures *)

(** Case analysis on what the environment answers during a delivery. *)
Ltac destruct_answers :=
  repeat match goal with
         | |- context [match os_open_w ?e ?p with _ => _ end] =>
             destruct (os_open_w e p) eqn:?
         | |- context [match utf8_encode ?s with _ => _ end] =>
             destruct (utf8_encode s) eqn:?
         | |- context [match os_write ?e ?p ?b with _ => _ end] =>
             destruct (os_write e p b) as [[? ?]|] eqn:?
         | |- context [match os_stdout ?e ?s with _ => _ end] =>
             destruct (os_stdout e s) as [[? ?]|] eqn:?
         end.


(** ** Files, handles and calls of a run *)

(** Whatever happens, a run opens the document once and leaves the handle
    it acquired released. *)
Lemma extract_text_frame (env : Env) (pdf_path : str) (output_path : option str) (w : World) :
  let w' := snd (extract_text env pdf_path output_path w) in
  pdf_calls w' = pdf_calls w ++ [pdf_path] /\
  handles w' = handles w ++ acquired env pdf_path.
Proof.
  cbv zeta. rewrite extract_text_eq.
  destruct (pass_ok_or_failure env pdf_path)
    as [(doc & pages & texts & Hopen & Hpages & Htexts)|[e H]].
  - rewrite (extract_body_ok _ _ _ _ _ _ _ Hopen Hpages Htexts), deliver_eq. cbv zeta.
    destruct (truthy output_path); destruct_answers; split; reflexivity.
  - destruct (extract_body_pass_failure env pdf_path output_path e w H) as (T & n & ->).
    split; reflexivity.
Qed.

(** A run whose pass fails leaves the files alone. *)
Lemma pass_failure_keeps_files (env : Env) (pdf_path : str) (output_path : option str)
    (e : Exception) (w : World) :
  PassFailure env pdf_path e ->
  files (snd (extract_text env pdf_path output_path w)) = files w.
Proof.
  intros H. rewrite extract_text_eq.
  destruct (extract_body_pass_failure env pdf_path output_path e w H) as (T & n & ->).
  reflexivity.
Qed.

(** C6. A run whose extraction pass fails (the document does not open, its
    pages cannot be listed, or a page raises) writes no file: the files
    are as they were before the run.  Conversely a run that has changed
    the files has opened the document and extracted every one of its
    pages. *)
Theorem file_written_only_after_full_pass (env : Env) (pdf_path : str)
    (output_path : option str) (w : World) :
  (forall e, PassFailure env pdf_path e ->
     files (snd (extract_text env pdf_path output_path w)) = files w) /\
  (files (snd (extract_text env pdf_path output_path w)) <> files w ->
     exists doc pages texts,
       pdfplumber_open env pdf_path = Ok doc /\
       doc_pages doc = Ok pages /\
       page_extract_text <$> pages = Ok <$> texts).
Proof.
  split.
  - intros e H. apply (pass_failure_keeps_files env pdf_path output_path e w H).
  - intros Hchanged.
    destruct (pass_ok_or_failure env pdf_path) as [Hok|[e H]]; [exact Hok|].
    contradict Hchanged.
    apply (pass_failure_keeps_files env pdf_path output_path e w H).
Qed.

(** C8. On every run of [extract_text], however it ends: when
    [pdfplumber.open] returned a document, the handle it handed out is in
    the world the run leaves, and it is released; when it raised, no
    handle was acquired.  The handles that existed before are untouched. *)
Theorem document_handle_released (env : Env) (pdf_path : str) (output_path : option str)
    (w : World) :
  let w' := snd (extract_text env pdf_path output_path w) in
  match pdfplumber_open env pdf_path with
  | Ok _ => handles w' = handles w ++ [mkHandle pdf_path false]
  | Raises _ => handles w' = handles w
  end.
Proof.
  cbv zeta.
  destruct (extract_text_frame env pdf_path output_path w) as [_ H].
  rewrite H. unfold acquired.
  destruct (pdfplumber_open env pdf_path); [reflexivity|apply app_nil_r].
Qed.

(** C9. Running the extraction a second time, on the same document and
    with the same output path, from the world the first run has left,
    leaves every file as the first run left it: the output file of the
    second run is the output file of the first, byte for byte. *)
Theorem second_run_leaves_same_files (env : Env) (pdf_path : str)
    (output_path : option str) (w : World) :
  let w1 := snd (extract_text env pdf_path output_path w) in
  let w2 := snd (extract_text env pdf_path output_path w1) in
  files w2 = files w1 /\
  files w2 !! get_str output_path = files w1 !! get_str output_path.
Proof.
  cbv zeta.
  assert (H : files (snd (extract_text env pdf_path output_path
                            (snd (extract_text env pdf_path output_path w)))) =
              files (snd (extract_text env pdf_path output_path w))).
  { destruct (pass_ok_or_failure env pdf_path)
      as [(doc & pages & texts & Hopen & Hpages & Htexts)|[e H]].
    - rewrite !extract_text_eq.
      rewrite !(extract_body_ok _ _ _ _ _ _ _ Hopen Hpages Htexts), !deliver_eq. cbv zeta.
      destruct (truthy output_path).
      + destruct (os_open_w env (get_str output_path)); [reflexivity|].
        destruct (utf8_encode (result (page_blocks 1 texts))) as [bs|].
        * destruct (os_write env (get_str output_path) bs) as [[e' written]|];
            simpl_world; apply insert_insert_eq.
        * simpl_world. apply insert_insert_eq.
      + destruct (os_stdout env (result (page_blocks 1 texts) ++ [LF])) as [[e' written]|];
          reflexivity.
    - apply (pass_failure_keeps_files env pdf_path output_path e _ H). }
  rewrite H. split; reflexivity.
Qed.

(** The file a successful run writes does not depend on the world the run
    starts from. *)
Lemma output_file_independent_of_start (env : Env) (pdf_path out : str) (w v : World) :
  out <> [] ->
  fst (extract_text env pdf_path (Some out) w) = Return tt ->
  fst (extract_text env pdf_path (Some out) v) = Return tt /\
  files (snd (extract_text env pdf_path (Some out) w)) !! out =
  files (snd (extract_text env pdf_path (Some out) v)) !! out.
Proof.
  intros Hne.
  assert (Ht : truthy (Some out) = true) by (destruct out; [contradiction|reflexivity]).
  rewrite !extract_text_eq.
  destruct (pass_ok_or_failure env pdf_path)
    as [(doc & pages & texts & Hopen & Hpages & Htexts)|[e H]].
  - rewrite !(extract_body_ok _ _ _ _ _ _ _ Hopen Hpages Htexts), !deliver_eq. cbv zeta.
    rewrite Ht. cbn [get_str].
    destruct (os_open_w env out); [discriminate|].
    destruct (utf8_encode (result (page_blocks 1 texts))) as [bs|]; [|discriminate].
    destruct (os_write env out bs) as [[e' written]|]; [discriminate|].
    intros _. split; [reflexivity|]. simpl_world.
    rewrite !lookup_insert_eq. reflexivity.
  - destruct (extract_body_pass_failure env pdf_path (Some out) e w H) as (T & n & ->).
    discriminate.
Qed.

(** ** Successful runs *)

(** The run that writes a file, in full. *)
Lemma extract_text_to_file (env : Env) (pdf_path out : str) (doc : Document)
    (pages : list Page) (texts : list (option str)) (bs : list byte) (w : World) :
  out <> [] ->
  pdfplumber_open env pdf_path = Ok doc ->
  doc_pages doc = Ok pages ->
  page_extract_text <$> pages = Ok <$> texts ->
  os_open_w env out = None ->
  utf8_encode (result (page_blocks 1 texts)) = Some bs ->
  os_write env out bs = None ->
  extract_text env pdf_path (Some out) w =
    (Return tt,
     mkWorld (sys_stdout w)
             (sys_stderr w ++ progress_log (length pages) 1 (length pages) ++
              lit "Text extracted to " ++ out ++ [LF])
             (<[out := bs]> (files w))
             (pdf_calls w ++ [pdf_path])
             (handles w ++ [mkHandle pdf_path false])).
Proof.
  intros Hne Hopen Hpages Htexts Hcreate Henc Hwrite.
  rewrite extract_text_eq, (extract_body_ok _ _ _ _ _ _ _ Hopen Hpages Htexts), deliver_eq.
  cbv zeta. cbn [get_str].
  assert (Ht : truthy (Some out) = true) by (destruct out; [contradiction|reflexivity]).
  rewrite Ht, Hcreate, Henc, Hwrite. unfold after_pass, acquired. rewrite Hopen.
  simpl_world. rewrite <- !app_assoc. reflexivity.
Qed.

(** C4, amended.  With a non-empty output path, when the document opens,
    every page extracts, the file can be created, the codec accepts the
    result and the write succeeds, [extract_text] returns normally;
    nothing is written to standard output; the file at the output path
    holds exactly the UTF-8 encoding of the result (bytes that decode to
    the result string), whatever it held before, and no other file is
    touched; and the last line on standard
    error, after the progress notices, is [Text extracted to {output_path}]. *)
Theorem with_output_path_writes_file (env : Env) (pdf_path out : str) (doc : Document)
    (pages : list Page) (texts : list (option str)) (bs : list byte) (w : World) :
  out <> [] ->
  pdfplumber_open env pdf_path = Ok doc ->
  doc_pages doc = Ok pages ->
  page_extract_text <$> pages = Ok <$> texts ->
  os_open_w env out = None ->
  utf8_encode (result (page_blocks 1 texts)) = Some bs ->
  os_write env out bs = None ->
  let run := extract_text env pdf_path (Some out) w in
  fst run = Return tt /\
  sys_stdout (snd run) = sys_stdout w /\
  files (snd run) = <[out := bs]> (files w) /\
  utf8_decode bs = Some (result (page_blocks 1 texts)) /\
  sys_stderr (snd run) =
    sys_stderr w ++ progress_log (length pages) 1 (length pages) ++
    lit "Text extracted to " ++ out ++ [LF].
Proof.
  intros Hne Hopen Hpages Htexts Hcreate Henc Hwrite. cbv zeta.
  rewrite (extract_text_to_file env pdf_path out doc pages texts bs w); try assumption.
  repeat split. apply utf8_decode_encode, Henc.
Qed.

(** C5. Without an output path, when the document opens, every page
    extracts and standard output accepts the text, [extract_text] returns
    normally, standard output has received the full result string,
    followed by the line feed of [print], and the files are as they were:
    no output file is created. *)
Theorem without_output_path_prints_result (env : Env) (pdf_path : str) (doc : Document)
    (pages : list Page) (texts : list (option str)) (w : World) :
  pdfplumber_open env pdf_path = Ok doc ->
  doc_pages doc = Ok pages ->
  page_extract_text <$> pages = Ok <$> texts ->
  os_stdout env (result (page_blocks 1 texts) ++ [LF]) = None ->
  let run := extract_text env pdf_path None w in
  fst run = Return tt /\
  sys_stdout (snd run) = sys_stdout w ++ result (page_blocks 1 texts) ++ [LF] /\
  files (snd run) = files w.
Proof.
  intros Hopen Hpages Htexts Hprint. cbv zeta.
  rewrite extract_text_eq, (extract_body_ok _ _ _ _ _ _ _ Hopen Hpages Htexts), deliver_eq.
  cbv zeta. cbn [truthy]. rewrite Hprint. repeat split.
Qed.

(** No page with text: no block, and an empty result. *)
Lemma page_blocks_blank (texts : list (option str)) :
  forallb (fun t => negb (truthy t)) texts = true ->
  forall i, page_blocks i texts = [].
Proof.
  induction texts as [|t texts IH]; intros H i; [reflexivity|].
  cbn [forallb] in H. apply andb_prop in H as [Ht H].
  cbn [page_blocks]. apply negb_true_iff in Ht. rewrite Ht. apply IH, H.
Qed.

(** C10, amended.  When the document opens and no page yields a non-empty
    text, the result string is empty.  With a non-empty output path (the
    file can be created and written), [extract_text] still creates or
    overwrites the file, leaving it empty, and still prints the notice
    [Text extracted to {output_path}] to standard error.  With no output
    path, or an empty one, it writes a single line feed to standard output
    (which accepts it) and touches no file. *)
Theorem blank_document_outputs (env : Env) (pdf_path : str) (doc : Document)
    (pages : list Page) (texts : list (option str)) (w : World) :
  pdfplumber_open env pdf_path = Ok doc ->
  doc_pages doc = Ok pages ->
  page_extract_text <$> pages = Ok <$> texts ->
  forallb (fun t => negb (truthy t)) texts = true ->
  result (page_blocks 1 texts) = [] /\
  (forall out : str,
     out <> [] -> os_open_w env out = None -> os_write env out [] = None ->
     let run := extract_text env pdf_path (Some out) w in
     fst run = Return tt /\
     files (snd run) = <[out := []]> (files w) /\
     sys_stdout (snd run) = sys_stdout w /\
     sys_stderr (snd run) =
       sys_stderr w ++ progress_log (length pages) 1 (length pages) ++
       lit "Text extracted to " ++ out ++ [LF]) /\
  (forall output_path : option str,
     truthy output_path = false -> os_stdout env [LF] = None ->
     let run := extract_text env pdf_path output_path w in
     fst run = Return tt /\
     sys_stdout (snd run) = sys_stdout w ++ [LF] /\
     files (snd run) = files w).
Proof.
  intros Hopen Hpages Htexts Hblank.
  pose proof (page_blocks_blank texts Hblank 1) as Hnil.
  split; [rewrite Hnil; reflexivity|]. split.
  - intros out Hne Hcreate Hwrite.
    cbv zeta.
    rewrite (extract_text_to_file env pdf_path out doc pages texts [] w); try assumption.
    + repeat split.
    + rewrite Hnil. reflexivity.
  - intros output_path Hfalsy Hprint. cbv zeta.
    rewrite extract_text_eq, (extract_body_ok _ _ _ _ _ _ _ Hopen Hpages Htexts), deliver_eq.
    cbv zeta. rewrite Hfalsy, Hnil. cbn [result join app]. rewrite Hprint.
    repeat split.
Qed.

(** ** The command line *)

(** With an input argument, the script calls [extract_text] on it, with
    the second argument, if any, as output path; further arguments are
    ignored. *)
Lemma main_with_arguments (env : Env) (script input_pdf : str) (rest : list str) (w : World) :
  main env (script :: input_pdf :: rest) w = extract_text env input_pdf (head rest) w.
Proof. unfold main. destruct rest; reflexivity. Qed.

(** An empty second argument reaches [extract_text] as an empty output
    path. *)
Example main_empty_output_argument :
  main demo_env [lit "extract.py"; in_pdf; []] initial_world =
  extract_text demo_env in_pdf (Some []) initial_world.
Proof. reflexivity. Qed.

(** C7. Started with no argument after the script name, the program
    prints the usage text (the module docstring) to standard error and
    exits with status 1; [pdfplumber.open] is never called, no handle
    exists that did not exist before, and the files and standard output
    are as they were. *)
Theorem no_argument_prints_usage_and_exits (env : Env) (argv : list str) (w : World) :
  (length argv < 2)%nat ->
  let run := main env argv w in
  fst run = Raise (SystemExit 1) /\
  exit_status (fst run) = 1%Z /\
  sys_stderr (snd run) = sys_stderr w ++ __doc__ ++ [LF] /\
  sys_stdout (snd run) = sys_stdout w /\
  pdf_calls (snd run) = pdf_calls w /\
  handles (snd run) = handles w /\
  files (snd run) = files w.
Proof.
  intros H. cbv zeta. unfold main.
  apply Nat.ltb_lt in H. rewrite H. repeat split.
Qed.

(** ** Sample runs *)



Lemma with_output_path_writes_file_witness :
  let run := extract_text demo_env in_pdf (Some out_txt) initial_world in
  fst run = Return tt /\
  sys_stdout (snd run) = sys_stdout initial_world /\
  files (snd run) = <[out_txt := demo_bytes]> (files initial_world) /\
  utf8_decode demo_bytes = Some (result (page_blocks 1 demo_texts)) /\
  sys_stderr (snd run) =
    sys_stderr initial_world ++ progress_log (length demo_pages) 1 (length demo_pages) ++
    lit "Text extracted to " ++ out_txt ++ [LF].
Proof.
  apply (with_output_path_writes_file demo_env in_pdf out_txt demo_doc demo_pages
           demo_texts demo_bytes initial_world);
    [discriminate | reflexivity ..].
Defined.

Lemma without_output_path_prints_result_witness :
  let run := extract_text demo_env in_pdf None initial_world in
  fst run = Return tt /\
  sys_stdout (snd run) =
    sys_stdout initial_world ++ result (page_blocks 1 demo_texts) ++ [LF] /\
  files (snd run) = files initial_world.
Proof.
  apply (without_output_path_prints_result demo_env in_pdf demo_doc demo_pages
           demo_texts initial_world); reflexivity.
Defined.

Lemma file_written_only_after_full_pass_witness :
  files (snd (extract_text broken_env in_pdf (Some out_txt) initial_world)) =
  files initial_world.
Proof.
  apply (proj1 (file_written_only_after_full_pass broken_env in_pdf (Some out_txt)
                  initial_world) bad_page).
  apply (page_raises broken_env in_pdf broken_doc
           [mkPage (Ok (Some (lit "Hello")))] (mkPage (Raises bad_page)) []
           [Some (lit "Hello")] bad_page); reflexivity.
Defined.

Lemma no_argument_prints_usage_and_exits_witness :
  let run := main demo_env [lit "extract.py"] initial_world in
  fst run = Raise (SystemExit 1) /\
  exit_status (fst run) = 1%Z /\
  sys_stderr (snd run) = sys_stderr initial_world ++ __doc__ ++ [LF] /\
  sys_stdout (snd run) = sys_stdout initial_world /\
  pdf_calls (snd run) = pdf_calls initial_world /\
  handles (snd run) = handles initial_world /\
  files (snd run) = files initial_world.
Proof.
  apply (no_argument_prints_usage_and_exits demo_env [lit "extract.py"] initial_world).
  cbn [length]. lia.
Defined.

Lemma blank_document_outputs_witness :
  result (page_blocks 1 blank_texts) = [] /\
  (let run := extract_text blank_env in_pdf (Some out_txt) initial_world in
   fst run = Return tt /\
   files (snd run) = <[out_txt := []]> (files initial_world) /\
   sys_stdout (snd run) = sys_stdout initial_world /\
   sys_stderr (snd run) =
     sys_stderr initial_world ++ progress_log (length blank_pages) 1 (length blank_pages) ++
     lit "Text extracted to " ++ out_txt ++ [LF]) /\
  (let run := extract_text blank_env in_pdf None initial_world in
   fst run = Return tt /\
   sys_stdout (snd run) = sys_stdout initial_world ++ [LF] /\
   files (snd run) = files initial_world).
Proof.
  destruct (blank_document_outputs blank_env in_pdf blank_doc blank_pages blank_texts
              initial_world eq_refl eq_refl eq_refl eq_refl) as (Hres & Hfile & Hprint).
  split; [exact Hres|]. split.
  - apply Hfile; [discriminate | reflexivity | reflexivity].
  - apply Hprint; reflexivity.
Defined.

(** C4, as stated, fails for an output path that is supplied but empty
    (an empty second argument on the command line): the test
    [if output_path:] takes the empty string for no path.  The run succeeds, the extracted text goes to
    standard output, no file is created and no notice is printed. *)
Lemma empty_output_path_prints_to_stdout :
  let run := extract_text demo_env in_pdf (Some []) initial_world in
  fst run = Return tt /\
  sys_stdout (snd run) =
    lit "--- Page 1 ---" ++ [LF] ++ lit "Hello" ++ [LF; LF] ++
    lit "--- Page 3 ---" ++ [LF] ++ lit "Bye" ++ [LF; LF] /\
  sys_stdout (snd run) <> sys_stdout initial_world /\
  files (snd run) !! ([] : str) = None /\
  sys_stderr (snd run) = progress_log 3 1 3.
Proof. vm_compute. repeat split. discriminate. Qed.

(** C10, as stated, fails for an output path that is supplied but empty:
    on a document without text no file is created and no notice is
    printed; a line feed goes to standard output. *)
Lemma empty_output_path_blank_document_creates_no_file :
  let run := extract_text blank_env in_pdf (Some []) initial_world in
  fst run = Return tt /\
  files (snd run) !! ([] : str) = None /\
  files (snd run) = files initial_world /\
  sys_stdout (snd run) = [LF] /\
  sys_stderr (snd run) = progress_log 2 1 2.
Proof. vm_compute. repeat split. Qed.

(** A file that cannot be created: the error is reported after the three
    progress notices, the exit status is 1, no file exists and the handle
    is released. *)
Example unwritable_output_reported :
  extract_text readonly_env in_pdf (Some out_txt) initial_world =
    (Raise (SystemExit 1),
     mkWorld []
             (progress_log 3 1 3 ++
              lit "Error: [Errno 13] Permission denied: 'out.txt'" ++ [LF])
             ∅ [in_pdf] [mkHandle in_pdf false]).
Proof. vm_compute. reflexivity. Qed.

(** A result the codec refuses: the file has been created, and is left
    empty; the error of the codec is reported. *)
Example unencodable_result_reported :
  let run := extract_text surrogate_env in_pdf (Some out_txt) initial_world in
  fst run = Raise (SystemExit 1) /\
  files (snd run) !! out_txt = Some [] /\
  sys_stderr (snd run) =
    progress_log 1 1 1 ++ lit "Error: surrogates not allowed" ++ [LF].
Proof. vm_compute. repeat split. Qed.

(** The full run of the script on the demo document, printing to standard
    output. *)
Example main_prints_demo :
  let run := main demo_env [lit "extract.py"; in_pdf] initial_world in
  exit_status (fst run) = 0%Z /\
  sys_stdout (snd run) =
    lit "--- Page 1 ---" ++ [LF] ++ lit "Hello" ++ [LF; LF] ++
    lit "--- Page 3 ---" ++ [LF] ++ lit "Bye" ++ [LF; LF] /\
  sys_stderr (snd run) =
    lit "Processing page 1/3..." ++ [LF] ++ lit "Processing page 2/3..." ++ [LF] ++
    lit "Processing page 3/3..." ++ [LF].
Proof. vm_compute. repeat split. Qed.

(** * Further properties of the script *)

(** ** The progress notices *)

Lemma progress_no_LF (i T : nat) : Forall (fun c => c <> LF) (progress i T).
Proof.
  unfold progress. rewrite !Forall_app. repeat split;
    try apply str_of_uint_no_LF; vm_compute; repeat constructor; discriminate.
Qed.

(** The notices of [n] pages are [n] lines, one per page. *)
Lemma lines_progress_log (T : nat) :
  forall n i, lines (progress_log T i n) = (fun j => progress j T) <$> seq i n.
Proof.
  induction n as [|n IH]; intros i; [reflexivity|].
  cbn [progress_log seq fmap list_fmap]. unfold lines in *. cbn [app].
  rewrite (lines_from_line (progress i T) (progress_no_LF i T)), IH. reflexivity.
Qed.

(** The body of the [try] statement when a page raises. *)
Lemma extract_body_page_raises (env : Env) (pdf_path : str) (output_path : option str)
    (doc : Document) (pre : list Page) (bad : Page) (post : list Page)
    (texts : list (option str)) (e : Exception) (w : World) :
  pdfplumber_open env pdf_path = Ok doc ->
  doc_pages doc = Ok (pre ++ bad :: post) ->
  page_extract_text <$> pre = Ok <$> texts ->
  page_extract_text bad = Raises e ->
  extract_body env pdf_path output_path [] w =
    (Raise (Exc e),
     after_pass env pdf_path
       (progress_log (length (pre ++ bad :: post)) 1 (S (length pre))) w).
Proof.
  intros Hopen Hpages Hpre Hbad.
  unfold extract_body, mbind, M_bind, bind, read_pages, with_, pdf_enter,
    after_pass, acquired.
  rewrite Hopen. unfold mbind, M_bind, bind. cbn [snd]. rewrite Hpages. cbn [call ret].
  rewrite (for_pages_raise _ texts pre bad post e 1 _ _ Hpre Hbad).
  unfold pdf_exit. simpl_world. rewrite release_last. reflexivity.
Qed.

(** X1. Whatever happens after a pass that extracted every page (the
    delivery may still fail), standard error first receives the progress
    notices: one line [Processing page i/T...] per page, for i from 1 to
    the page count T, in that order. *)
Theorem progress_notices_one_per_page (env : Env) (pdf_path : str)
    (output_path : option str) (doc : Document) (pages : list Page)
    (texts : list (option str)) (w : World) :
  pdfplumber_open env pdf_path = Ok doc ->
  doc_pages doc = Ok pages ->
  page_extract_text <$> pages = Ok <$> texts ->
  exists log tail : str,
    sys_stderr (snd (extract_text env pdf_path output_path w)) =
      sys_stderr w ++ log ++ tail /\
    lines log = (fun i => progress i (length pages)) <$> seq 1 (length pages).
Proof.
  intros Hopen Hpages Htexts.
  exists (progress_log (length pages) 1 (length pages)).
  rewrite extract_text_eq, (extract_body_ok _ _ _ _ _ _ _ Hopen Hpages Htexts), deliver_eq.
  cbv zeta. unfold after_pass.
  destruct (truthy output_path); destruct_answers; simpl_world;
    eexists; (split; [|apply lines_progress_log]);
    rewrite <- ?app_assoc; try reflexivity.
  all: rewrite app_nil_r; reflexivity.
Qed.

(** X2. When a page raises after the pages before it extracted, the pass
    stops there: the notices printed are those of the pages up to and
    including the failing one (with the full page count), the pages after
    it are not visited, the error line follows, nothing is written to
    standard output and no file is touched, whatever the output path. *)
Theorem failing_page_stops_the_pass (env : Env) (pdf_path : str)
    (output_path : option str) (doc : Document) (pre : list Page) (bad : Page)
    (post : list Page) (texts : list (option str)) (e : Exception) (w : World) :
  pdfplumber_open env pdf_path = Ok doc ->
  doc_pages doc = Ok (pre ++ bad :: post) ->
  page_extract_text <$> pre = Ok <$> texts ->
  page_extract_text bad = Raises e ->
  let run := extract_text env pdf_path output_path w in
  let T := length (pre ++ bad :: post) in
  let k := S (length pre) in
  fst run = Raise (SystemExit 1) /\
  sys_stderr (snd run) =
    sys_stderr w ++ progress_log T 1 k ++ lit "Error: " ++ exc_message e ++ [LF] /\
  lines (progress_log T 1 k) = (fun i => progress i T) <$> seq 1 k /\
  sys_stdout (snd run) = sys_stdout w /\
  files (snd run) = files w.
Proof.
  intros Hopen Hpages Hpre Hbad. cbv zeta.
  rewrite extract_text_eq,
    (extract_body_page_raises env pdf_path output_path doc pre bad post texts e w
       Hopen Hpages Hpre Hbad).
  unfold after_pass. simpl_world. rewrite <- !app_assoc.
  repeat split. apply lines_progress_log.
Qed.

(** ** Counting and reading back the blocks *)

Lemma length_page_blocks (texts : list (option str)) :
  forall i, length (page_blocks i texts) = length (List.filter truthy texts).
Proof.
  induction texts as [|t texts IH]; intros i; [reflexivity|].
  cbn [page_blocks List.filter]. rewrite length_app, IH.
  destruct (truthy t); reflexivity.
Qed.

(** X3. After a pass that extracted every page, the list [text_content]
    holds as many blocks as there are pages with a non-empty text, hence
    at most one block per page. *)
Theorem one_block_per_page_with_text (pages : list Page) (texts : list (option str))
    (w : World) :
  page_extract_text <$> pages = Ok <$> texts ->
  exists text_content : list str,
    fst (for_pages pages 1 pages [] w) = Return text_content /\
    length text_content = length (List.filter truthy texts) /\
    (length text_content <= length pages)%nat.
Proof.
  intros H. exists (page_blocks 1 texts).
  rewrite (for_pages_ok pages texts pages 1 [] w H).
  split; [reflexivity|]. rewrite length_page_blocks. split; [reflexivity|].
  assert (Hlen : length pages = length texts).
  { rewrite <- (length_fmap page_extract_text pages), H. apply length_fmap. }
  rewrite Hlen. apply List.filter_length_le.
Qed.

Lemma page_blocks_full (texts : list (option str)) :
  forallb truthy texts = true ->
  forall i, page_blocks i texts = zip_with block (seq i (length texts)) (get_str <$> texts).
Proof.
  induction texts as [|t texts IH]; intros H i; [reflexivity|].
  cbn [forallb] in H. apply andb_prop in H as [Ht H].
  cbn [page_blocks length seq fmap list_fmap zip_with]. rewrite Ht, (IH H). reflexivity.
Qed.

(** X4. When every page yields a non-empty text, the pass leaves exactly
    one block per page, the block of page 1 first and the block of the
    last page last: the list is [block 1 t1; block 2 t2; ...; block T tT]. *)
Theorem every_page_with_text_has_its_block (pages : list Page)
    (texts : list (option str)) (w : World) :
  page_extract_text <$> pages = Ok <$> texts ->
  forallb truthy texts = true ->
  fst (for_pages pages 1 pages [] w) =
    Return (zip_with block (seq 1 (length pages)) (get_str <$> texts)) /\
  length (zip_with block (seq 1 (length pages)) (get_str <$> texts)) = length pages.
Proof.
  intros H Hfull.
  assert (Hlen : length pages = length texts).
  { rewrite <- (length_fmap page_extract_text pages), H. apply length_fmap. }
  rewrite (for_pages_ok pages texts pages 1 [] w H), Hlen.
  cbn [app fst]. rewrite (page_blocks_full texts Hfull 1). split; [reflexivity|].
  rewrite length_zip_with, length_seq, length_fmap. lia.
Qed.

(** The decimal digits of a number determine it. *)
Lemma str_of_uint_inj (d d' : Decimal.uint) : str_of_uint d = str_of_uint d' -> d = d'.
Proof.
  revert d'. induction d; destruct d'; cbn [str_of_uint]; intros H;
    try discriminate H; try reflexivity; injection H as H; f_equal; auto.
Qed.

Lemma str_of_nat_inj (i j : nat) : str_of_nat i = str_of_nat j -> i = j.
Proof.
  unfold str_of_nat. intros H. apply str_of_uint_inj in H.
  rewrite <- (Unsigned.of_to i), <- (Unsigned.of_to j), H. reflexivity.
Qed.

(** Two texts that agree up to their first line feed agree before it and
    after it. *)
Lemma first_line_inj (a b x y : str) :
  Forall (fun c => c <> LF) a ->
  Forall (fun c => c <> LF) b ->
  a ++ LF :: x = b ++ LF :: y ->
  a = b /\ x = y.
Proof.
  intros Ha. revert b. induction Ha as [|c a Hc _ IH]; intros b Hb H.
  - destruct Hb as [|c' b Hc' _]; cbn [app] in H.
    + injection H as ->. split; reflexivity.
    + injection H as <- _. contradiction.
  - destruct Hb as [|c' b Hc' Hb]; cbn [app] in H.
    + injection H as -> _. contradiction.
    + injection H as -> H. destruct (IH b Hb H) as [-> ->]. split; reflexivity.
Qed.

(** X5. A block determines its page number and its text: two blocks are
    equal only when they are the block of the same page with the same
    text. *)
Theorem block_determines_page_and_text (i j : nat) (t u : str) :
  block i t = block j u <-> i = j /\ t = u.
Proof.
  split; [|intros [-> ->]; reflexivity].
  unfold block. cbn [app]. intros H.
  apply first_line_inj in H as [Hm Ht]; try apply marker_no_LF.
  unfold marker in Hm. apply app_inv_head, app_inv_tail, str_of_nat_inj in Hm.
  apply app_inv_tail in Ht. split; assumption.
Qed.

Lemma page_blocks_nil (texts : list (option str)) :
  forall i, page_blocks i texts = [] <-> forallb (fun t => negb (truthy t)) texts = true.
Proof.
  induction texts as [|t texts IH]; intros i; [split; reflexivity|].
  cbn [page_blocks forallb]. destruct (truthy t); cbn [negb andb app].
  - split; discriminate.
  - apply IH.
Qed.

Lemma join_blocks_nil (bs : list str) :
  Forall (fun b => b <> []) bs -> join [LF] bs = [] -> bs = [].
Proof.
  intros Hne H. destruct Hne as [|b bs Hb _]; [reflexivity|].
  destruct b as [|c b]; [contradiction|].
  destruct bs; discriminate H.
Qed.

Lemma page_blocks_nonempty (texts : list (option str)) :
  forall i, Forall (fun b => b <> []) (page_blocks i texts).
Proof.
  induction texts as [|t texts IH]; intros i; [constructor|].
  cbn [page_blocks]. apply Forall_app. split; [|apply IH].
  destruct (truthy t); constructor; [|constructor].
  unfold block, marker. vm_compute. discriminate.
Qed.

(** X6. The result string of a pass is empty exactly when no page yielded
    a non-empty text: a single page with text is enough for the output to
    hold its block. *)
Theorem result_empty_iff_no_text (texts : list (option str)) :
  result (page_blocks 1 texts) = [] <->
  forallb (fun t => negb (truthy t)) texts = true.
Proof.
  rewrite <- (page_blocks_nil texts 1). split.
  - apply join_blocks_nil, page_blocks_nonempty.
  - intros ->. reflexivity.
Qed.

(** ** How a run ends *)





(** ** What a run leaves alone *)

(** X9. The output path selects one channel, whether the run succeeds or
    fails: with a non-empty output path nothing is ever written to
    standard output; with no output path, or an empty one, no file is
    ever written. *)
Theorem output_path_selects_one_channel (env : Env) (pdf_path : str)
    (output_path : option str) (w : World) :
  let w' := snd (extract_text env pdf_path output_path w) in
  if truthy output_path then sys_stdout w' = sys_stdout w else files w' = files w.
Proof.
  cbv zeta. rewrite extract_text_eq.
  destruct (pass_ok_or_failure env pdf_path)
    as [(doc & pages & texts & Hopen & Hpages & Htexts)|[e H]].
  - rewrite (extract_body_ok _ _ _ _ _ _ _ Hopen Hpages Htexts), deliver_eq. cbv zeta.
    destruct (truthy output_path); destruct_answers; reflexivity.
  - destruct (extract_body_pass_failure env pdf_path output_path e w H) as (T & n & ->).
    destruct (truthy output_path); reflexivity.
Qed.

(** X10. A run touches no file other than the one at the output path:
    with that one path set aside, the files after the run are the files
    before it, whether the run succeeds or fails. *)
Theorem only_the_output_file_is_touched (env : Env) (pdf_path : str)
    (output_path : option str) (w : World) :
  delete (get_str output_path) (files (snd (extract_text env pdf_path output_path w))) =
  delete (get_str output_path) (files w).
Proof.
  rewrite extract_text_eq.
  destruct (pass_ok_or_failure env pdf_path)
    as [(doc & pages & texts & Hopen & Hpages & Htexts)|[e H]].
  - rewrite (extract_body_ok _ _ _ _ _ _ _ Hopen Hpages Htexts), deliver_eq. cbv zeta.
    destruct (truthy output_path); destruct_answers; simpl_world;
      rewrite ?delete_insert_eq; reflexivity.
  - destruct (extract_body_pass_failure env pdf_path output_path e w H) as (T & n & ->).
    reflexivity.
Qed.

(** X11. Started with an input argument, the script calls
    [pdfplumber.open] exactly once, on that argument: it opens no other
    path and does not try again, whether the run succeeds or fails; the
    output argument and further arguments are never opened as documents. *)
Theorem script_opens_input_once (env : Env) (script input_pdf : str)
    (rest : list str) (w : World) :
  pdf_calls (snd (main env (script :: input_pdf :: rest) w)) =
  pdf_calls w ++ [input_pdf].
Proof.
  rewrite main_with_arguments.
  apply (extract_text_frame env input_pdf (head rest) w).
Qed.

(** ** Failures of the delivery *)

(** X12. When the output file cannot be created, the run exits with
    status 1 after the error line, and every file, the one at the output
    path included, is as it was: what the file held before is kept.
    Nothing is written to standard output. *)
Theorem uncreatable_output_keeps_files (env : Env) (pdf_path out : str) (doc : Document)
    (pages : list Page) (texts : list (option str)) (e : Exception) (w : World) :
  out <> [] ->
  pdfplumber_open env pdf_path = Ok doc ->
  doc_pages doc = Ok pages ->
  page_extract_text <$> pages = Ok <$> texts ->
  os_open_w env out = Some e ->
  let run := extract_text env pdf_path (Some out) w in
  fst run = Raise (SystemExit 1) /\
  files (snd run) = files w /\
  sys_stdout (snd run) = sys_stdout w /\
  sys_stderr (snd run) =
    sys_stderr w ++ progress_log (length pages) 1 (length pages) ++
    lit "Error: " ++ exc_message e ++ [LF].
Proof.
  intros Hne Hopen Hpages Htexts Hcreate. cbv zeta.
  assert (Ht : truthy (Some out) = true) by (destruct out; [contradiction|reflexivity]).
  rewrite extract_text_eq, (extract_body_ok _ _ _ _ _ _ _ Hopen Hpages Htexts), deliver_eq.
  cbv zeta. cbn [get_str]. rewrite Ht, Hcreate.
  unfold after_pass. simpl_world. rewrite <- !app_assoc. repeat split.
Qed.

(** X13. When the output file can be created but the codec refuses the
    result (a text with a lone surrogate), the run exits with status 1
    after the error line of the codec, and the file at the output path is
    left empty: it was created or truncated before the write was tried,
    so what it held before is lost. *)
Theorem unencodable_result_leaves_empty_file (env : Env) (pdf_path out : str)
    (doc : Document) (pages : list Page) (texts : list (option str)) (w : World) :
  out <> [] ->
  pdfplumber_open env pdf_path = Ok doc ->
  doc_pages doc = Ok pages ->
  page_extract_text <$> pages = Ok <$> texts ->
  os_open_w env out = None ->
  utf8_encode (result (page_blocks 1 texts)) = None ->
  let run := extract_text env pdf_path (Some out) w in
  fst run = Raise (SystemExit 1) /\
  files (snd run) = <[out := []]> (files w) /\
  sys_stdout (snd run) = sys_stdout w /\
  sys_stderr (snd run) =
    sys_stderr w ++ progress_log (length pages) 1 (length pages) ++
    lit "Error: " ++
    exc_message (UnicodeEncodeError env (result (page_blocks 1 texts))) ++ [LF].
Proof.
  intros Hne Hopen Hpages Htexts Hcreate Henc. cbv zeta.
  assert (Ht : truthy (Some out) = true) by (destruct out; [contradiction|reflexivity]).
  rewrite extract_text_eq, (extract_body_ok _ _ _ _ _ _ _ Hopen Hpages Htexts), deliver_eq.
  cbv zeta. cbn [get_str]. rewrite Ht, Hcreate, Henc.
  unfold after_pass. simpl_world. rewrite <- !app_assoc. repeat split.
Qed.

(** X14. When the document cannot be opened (a missing or corrupt file),
    the run prints the error line and nothing else, exits with status 1,
    writes nothing to standard output, touches no file and acquires no
    handle, whatever the output path. *)
Theorem unopenable_document_only_reports (env : Env) (pdf_path : str)
    (output_path : option str) (e : Exception) (w : World) :
  pdfplumber_open env pdf_path = Raises e ->
  extract_text env pdf_path output_path w =
    (Raise (SystemExit 1),
     mkWorld (sys_stdout w)
             (sys_stderr w ++ lit "Error: " ++ exc_message e ++ [LF])
             (files w)
             (pdf_calls w ++ [pdf_path])
             (handles w)).
Proof.
  intros Hopen. rewrite extract_text_eq.
  unfold extract_body, mbind, M_bind, bind, read_pages, with_, pdf_enter.
  rewrite Hopen. simpl_world. rewrite <- !app_assoc. reflexivity.
Qed.

(** X15. Without an output path, or with an empty one, a run that fails
    nowhere prints no confirmation notice: standard error holds the
    progress notices and nothing after them. *)
Theorem print_run_has_no_notice (env : Env) (pdf_path : str) (output_path : option str)
    (doc : Document) (pages : list Page) (texts : list (option str)) (w : World) :
  truthy output_path = false ->
  pdfplumber_open env pdf_path = Ok doc ->
  doc_pages doc = Ok pages ->
  page_extract_text <$> pages = Ok <$> texts ->
  os_stdout env (result (page_blocks 1 texts) ++ [LF]) = None ->
  let run := extract_text env pdf_path output_path w in
  fst run = Return tt /\
  sys_stderr (snd run) = sys_stderr w ++ progress_log (length pages) 1 (length pages).
Proof.
  intros Hfalsy Hopen Hpages Htexts Hprint. cbv zeta.
  rewrite extract_text_eq, (extract_body_ok _ _ _ _ _ _ _ Hopen Hpages Htexts), deliver_eq.
  cbv zeta. rewrite Hfalsy, Hprint. split; reflexivity.
Qed.

(** ** Sample runs for the further properties *)

Lemma progress_notices_one_per_page_witness :
  exists log tail : str,
    sys_stderr (snd (extract_text demo_env in_pdf (Some out_txt) initial_world)) =
      sys_stderr initial_world ++ log ++ tail /\
    lines log = (fun i => progress i (length demo_pages)) <$> seq 1 (length demo_pages).
Proof.
  apply (progress_notices_one_per_page demo_env in_pdf (Some out_txt) demo_doc
           demo_pages demo_texts initial_world); reflexivity.
Defined.

Lemma failing_page_stops_the_pass_witness :
  let run := extract_text broken_env in_pdf (Some out_txt) initial_world in
  let T := length ([mkPage (Ok (Some (lit "Hello")))] ++ mkPage (Raises bad_page) :: []) in
  let k := S (length [mkPage (Ok (Some (lit "Hello")))]) in
  fst run = Raise (SystemExit 1) /\
  sys_stderr (snd run) =
    sys_stderr initial_world ++ progress_log T 1 k ++
    lit "Error: " ++ exc_message bad_page ++ [LF] /\
  lines (progress_log T 1 k) = (fun i => progress i T) <$> seq 1 k /\
  sys_stdout (snd run) = sys_stdout initial_world /\
  files (snd run) = files initial_world.
Proof.
  apply (failing_page_stops_the_pass broken_env in_pdf (Some out_txt) broken_doc
           [mkPage (Ok (Some (lit "Hello")))] (mkPage (Raises bad_page)) []
           [Some (lit "Hello")] bad_page initial_world); reflexivity.
Defined.

Lemma one_block_per_page_with_text_witness :
  exists text_content : list str,
    fst (for_pages demo_pages 1 demo_pages [] initial_world) = Return text_content /\
    length text_content = length (List.filter truthy demo_texts) /\
    (length text_content <= length demo_pages)%nat.
Proof.
  apply (one_block_per_page_with_text demo_pages demo_texts initial_world).
  reflexivity.
Defined.

Lemma every_page_with_text_has_its_block_witness :
  fst (for_pages full_pages 1 full_pages [] initial_world) =
    Return (zip_with block (seq 1 (length full_pages)) (get_str <$> full_texts)) /\
  length (zip_with block (seq 1 (length full_pages)) (get_str <$> full_texts)) =
    length full_pages.
Proof.
  apply (every_page_with_text_has_its_block full_pages full_texts initial_world);
    reflexivity.
Defined.

Lemma uncreatable_output_keeps_files_witness :
  let run := extract_text readonly_env in_pdf (Some out_txt) initial_world in
  fst run = Raise (SystemExit 1) /\
  files (snd run) = files initial_world /\
  sys_stdout (snd run) = sys_stdout initial_world /\
  sys_stderr (snd run) =
    sys_stderr initial_world ++ progress_log (length demo_pages) 1 (length demo_pages) ++
    lit "Error: " ++ exc_message permission_denied ++ [LF].
Proof.
  apply (uncreatable_output_keeps_files readonly_env in_pdf out_txt demo_doc demo_pages
           demo_texts permission_denied initial_world);
    [discriminate | reflexivity ..].
Defined.

Lemma unencodable_result_leaves_empty_file_witness :
  let run := extract_text surrogate_env in_pdf (Some out_txt) initial_world in
  fst run = Raise (SystemExit 1) /\
  files (snd run) = <[out_txt := []]> (files initial_world) /\
  sys_stdout (snd run) = sys_stdout initial_world /\
  sys_stderr (snd run) =
    sys_stderr initial_world ++ progress_log 1 1 1 ++
    lit "Error: " ++
    exc_message (UnicodeEncodeError surrogate_env
                   (result (page_blocks 1 [Some [0xDC80]]))) ++ [LF].
Proof.
  apply (unencodable_result_leaves_empty_file surrogate_env in_pdf out_txt surrogate_doc
           [mkPage (Ok (Some [0xDC80]))] [Some [0xDC80]] initial_world);
    [discriminate | reflexivity ..].
Defined.

Lemma unopenable_document_only_reports_witness :
  extract_text (env_of (Raises bad_page)) in_pdf (Some out_txt) initial_world =
    (Raise (SystemExit 1),
     mkWorld (sys_stdout initial_world)
             (sys_stderr initial_world ++ lit "Error: " ++ exc_message bad_page ++ [LF])
             (files initial_world)
             (pdf_calls initial_world ++ [in_pdf])
             (handles initial_world)).
Proof.
  apply (unopenable_document_only_reports (env_of (Raises bad_page)) in_pdf
           (Some out_txt) bad_page initial_world).
  reflexivity.
Defined.

Lemma print_run_has_no_notice_witness :
  let run := extract_text demo_env in_pdf None initial_world in
  fst run = Return tt /\
  sys_stderr (snd run) =
    sys_stderr initial_world ++ progress_log (length demo_pages) 1 (length demo_pages).
Proof.
  apply (print_run_has_no_notice demo_env in_pdf None demo_doc demo_pages demo_texts
           initial_world); reflexivity.
Defined.
